(** * number_types.coordinates: the [Coordinate] value type

    A shallow embedding of [src/number_types/coordinates.py].

    A [Coordinate] is a Python tuple of two numbers with a boolean attribute
    [_is_rectangular]; the methods read the stored pair as [(x, y)] or as
    [(r, theta)] according to that flag.  The methods are written over an
    interface [PyNum] of the arithmetic the host gives to the stored
    numbers, and read at [Binary64.binary64 L]: Python's [float] on IEEE-754
    binary64 (Rocq's primitive floats), with the exceptions CPython raises
    ([ZeroDivisionError] on a zero divisor, [OverflowError] from [**],
    [ValueError] from the [math] module) and the platform's C library [L]
    behind [math.atan], [math.cos], [math.sin] and [pow].  General facts are
    proved for every arithmetic or for every [L]; examples are evaluated
    over [Binary64.Reference.libm], which tabulates the correctly rounded
    values at the arguments the examples reach.

    Integer arguments of the examples ([Coordinate(2, 0)]) are read as the
    floats of the same value, which every operation of the class turns them
    into.  Exceptions are results: a method evaluates to [Ret v] or to
    [Raise e]. *)

From Stdlib Require Import ZArith Bool Lia Floats.

Set Implicit Arguments.

(** ** Exceptions and results *)

(** The exceptions the program can raise. *)
Inductive exn : Type :=
  | ZeroDivisionError
  | OverflowError
  | ValueError
  | TypeError.

(** The outcome of evaluating a Python expression. *)
Inductive result (A : Type) : Type :=
  | Ret (a : A)
  | Raise (e : exn).

Arguments Ret {A} a.
Arguments Raise {A} e.

Definition bind {A B : Type} (m : result A) (k : A -> result B) : result B :=
  match m with
  | Ret a => k a
  | Raise e => Raise e
  end.

Declare Scope py_scope.
Delimit Scope py_scope with py.
Notation "x <- m ;; k" := (bind m (fun x => k))
  (at level 61, m at next level, right associativity) : py_scope.
Open Scope py_scope.

(** What a binary special method hands back: a value, or the
    [NotImplemented] sentinel that makes the interpreter try the reflected
    method of the other operand. *)
Inductive dunder (A : Type) : Type :=
  | Done (a : A)
  | NotImplemented.

Arguments Done {A} a.
Arguments NotImplemented {A}.

(** ** The host's arithmetic on the stored numbers *)

Class PyNum (N : Type) : Type := {
  of_int : Z -> N;                  (* an [int] literal used as an operand *)
  half : N;                         (* the literal [0.5] *)
  pi : N;                           (* [math.pi] *)
  add : N -> N -> N;                (* [a + b] *)
  mul : N -> N -> N;                (* [a * b] *)
  neg : N -> N;                     (* [-a] *)
  div : N -> N -> result N;         (* [a / b] *)
  modulo : N -> N -> result N;      (* [a % b] *)
  pow : N -> N -> result N;         (* [a ** b] *)
  eqb : N -> N -> bool;             (* [a == b] *)
  ltb : N -> N -> bool;             (* [a < b] *)
  leb : N -> N -> bool;             (* [a <= b] *)
  truth : N -> bool;                (* [bool(a)] *)
  math_atan : N -> result N;
  math_cos : N -> result N;
  math_sin : N -> result N
}.

(** ** The class [Coordinate] *)

Module Coordinate.
Section Methods.

Context {N : Type} {num : PyNum N}.

(** [self[0]], [self[1]] and [self._is_rectangular]. *)
Record t : Type := new {
  item0 : N;
  item1 : N;
  is_rectangular : bool
}.

(** What can stand on the other side of an operator: a Coordinate, a real
    number ([numbers.Real]), an object of another built-in type (None, a
    string, a list), which has no arithmetic with Coordinates of its own,
    or an instance of some other class, given by what its reflected methods
    [__radd__] and [__rsub__] answer to a Coordinate ([NotImplemented] when
    the class defines none; of the values such a method may return the
    model keeps the Coordinates). *)
Inductive value : Type :=
  | VCoordinate (c : t)
  | VReal (n : N)
  | VOther
  | VObject (radd rsub : t -> result (dunder t)).

Definition is_coordinate (v : value) : bool :=
  match v with VCoordinate _ => true | _ => false end.

Definition is_real (v : value) : bool :=
  match v with VReal _ => true | _ => false end.

(** [math.tau = getattr(math, 'tau', 2 * math.pi)]: both alternatives are
    the same number. *)
Definition tau : N := mul (of_int 2) pi.

Definition is_polar (self : t) : bool := negb (is_rectangular self).

(** [to_rect].  On a polar instance [self.r] and [self.theta] are the
    stored items. *)
Definition to_rect (self : t) : result t :=
  if is_rectangular self then Ret self
  else
    c <- math_cos (item1 self) ;;
    s <- math_sin (item1 self) ;;
    Ret (new (mul (item0 self) c) (mul (item0 self) s) true).

Definition x (self : t) : result N :=
  if is_rectangular self then Ret (item0 self)
  else rect <- to_rect self ;; Ret (item0 rect).

Definition y (self : t) : result N :=
  if is_rectangular self then Ret (item1 self)
  else rect <- to_rect self ;; Ret (item1 rect).

Definition r (self : t) : result N :=
  if is_rectangular self then
    sx <- x self ;;
    x2 <- pow sx (of_int 2) ;;
    sy <- y self ;;
    y2 <- pow sy (of_int 2) ;;
    pow (add x2 y2) half
  else Ret (item0 self).

Definition __abs__ (self : t) : result N := r self.

(** [+self]. On a polar instance [self.r] and [self.theta] are the stored
    items; on a rectangular one [self.x] and [self.y] are. *)
Definition __pos__ (self : t) : result t :=
  if is_rectangular self then
    sx <- x self ;;
    sy <- y self ;;
    Ret (new sx sy true)
  else
    sr <- r self ;;
    th <- modulo (item1 self) tau ;;
    Ret (new sr th false).

Definition to_polar (self : t) : result t :=
  if is_rectangular self then
    sx <- x self ;;
    theta <-
      (if truth sx then
         sy <- y self ;;
         q <- div sy sx ;;
         a <- math_atan q ;;
         Ret (if ltb sx (of_int 0) then add a pi else a)
       else
         sy <- y self ;;
         if truth sy then
           if ltb (of_int 0) sy then div tau (of_int 4)
           else div (mul tau (of_int 3)) (of_int 4)
         else Ret (of_int 0)) ;;
    m <- __abs__ self ;;
    Ret (new m theta false)
  else __pos__ self.

Definition theta (self : t) : result N :=
  if is_rectangular self then
    p <- to_polar self ;;
    Ret (item1 p)
  else Ret (item1 self).

(** [__eq__] when [other] is a Coordinate.  The last line of the source
    calls [==] again on two rectangular instances, which is the first
    branch. *)
Definition eq_rectangular (self other : t) : result bool :=
  sx <- x self ;;
  ox <- x other ;;
  if eqb sx ox then
    sy <- y self ;;
    oy <- y other ;;
    Ret (eqb sy oy)
  else Ret false.

Definition __eq__ (self other : t) : result bool :=
  if is_rectangular other && is_rectangular self then
    eq_rectangular self other
  else if negb (is_rectangular other) && negb (is_rectangular other) then
    sr <- r self ;;
    or <- r other ;;
    if eqb sr or then
      st <- theta self ;;
      sm <- modulo st tau ;;
      ot <- theta other ;;
      om <- modulo ot tau ;;
      Ret (eqb sm om)
    else Ret false
  else
    rs <- to_rect self ;;
    ro <- to_rect other ;;
    eq_rectangular rs ro.

Definition conjugate (self : t) : result t :=
  __pos__ (new (item0 self) (neg (item1 self)) (is_rectangular self)).

Definition __neg__ (self : t) : result t :=
  __pos__ (new (neg (item0 self)) (neg (item1 self)) (is_rectangular self)).

Definition __add__ (self : t) (other : value) : result (dunder t) :=
  match other with
  | VCoordinate other =>
      rect_self <- to_rect self ;;
      other <- to_rect other ;;
      sx <- x rect_self ;;
      ox <- x other ;;
      sy <- y rect_self ;;
      oy <- y other ;;
      let added := new (add sx ox) (add sy oy) true in
      if negb (is_rectangular self) then
        p <- to_polar added ;; Ret (Done p)
      else Ret (Done added)
  | _ => Ret NotImplemented
  end.

Definition __sub__ (self : t) (other : value) : result (dunder t) :=
  match other with
  | VCoordinate other =>
      rect_self <- to_rect self ;;
      other <- to_rect other ;;
      other <- __neg__ other ;;
      sx <- x rect_self ;;
      ox <- x other ;;
      sy <- y rect_self ;;
      oy <- y other ;;
      let subtracted := new (add sx ox) (add sy oy) true in
      if negb (is_rectangular self) then
        p <- to_polar subtracted ;; Ret (Done p)
      else Ret (Done subtracted)
  | _ => Ret NotImplemented
  end.

Definition __mul__ (self : t) (other : value) : result (dunder t) :=
  match other with
  | VReal other =>
      if is_rectangular self then
        sx <- x self ;;
        sy <- y self ;;
        Ret (Done (new (mul sx other) (mul sy other) true))
      else
        sr <- r self ;;
        st <- theta self ;;
        p <- __pos__ (new (mul sr other) st false) ;;
        Ret (Done p)
  | _ => Ret NotImplemented
  end.

Definition __rmul__ (self : t) (other : value) : result (dunder t) :=
  __mul__ self other.

Definition __truediv__ (self : t) (other : value) : result (dunder t) :=
  match other with
  | VReal other =>
      if is_rectangular self then
        sx <- x self ;;
        qx <- div sx other ;;
        sy <- y self ;;
        qy <- div sy other ;;
        Ret (Done (new qx qy true))
      else
        sr <- r self ;;
        q <- div sr other ;;
        st <- theta self ;;
        p <- __pos__ (new q st false) ;;
        Ret (Done p)
  | _ => Ret NotImplemented
  end.

(** [rotate]: the instance built for [rotated] gets the default
    [is_rectangular=True]. *)
Definition rotate (self : t) (angle : N) : result t :=
  polar_self <- to_polar self ;;
  pr <- r polar_self ;;
  pt <- theta polar_self ;;
  rotated <- __pos__ (new pr (add pt angle) true) ;;
  if is_rectangular self then to_rect rotated
  else Ret rotated.

(** [other.__rsub__(self)] and [other.__radd__(self)], the reflected
    methods of the right operand.  No built-in type provides them for a
    Coordinate. *)
Definition __rsub__ (other : value) (self : t) : result (dunder t) :=
  match other with
  | VObject _ rsub => rsub self
  | _ => Ret NotImplemented
  end.

Definition __radd__ (other : value) (self : t) : result (dunder t) :=
  match other with
  | VObject radd _ => radd self
  | _ => Ret NotImplemented
  end.

(** The operator [a - b] with a Coordinate on the left: [a.__sub__(b)],
    on [NotImplemented] the reflected [b.__rsub__(a)], and [TypeError] when
    that answers [NotImplemented] too. *)
Definition sub_operator (self : t) (other : value) : result t :=
  d <- __sub__ self other ;;
  match d with
  | Done c => Ret c
  | NotImplemented =>
      d' <- __rsub__ other self ;;
      match d' with
      | Done c => Ret c
      | NotImplemented => Raise TypeError
      end
  end.

Definition equals (self : t) (other : value) (tolerance : N) : result bool :=
  d <- sub_operator self other ;;
  m <- __abs__ d ;;
  Ret (leb m tolerance).

(** The operator [a + b] with a Coordinate on the left: [a.__add__(b)],
    on [NotImplemented] the reflected [b.__radd__(a)], and when that
    answers [NotImplemented] too, the tuple concatenation that [Coordinate]
    inherits, which refuses every operand that is not a tuple. *)
Definition add_operator (self : t) (other : value) : result t :=
  d <- __add__ self other ;;
  match d with
  | Done c => Ret c
  | NotImplemented =>
      d' <- __radd__ other self ;;
      match d' with
      | Done c => Ret c
      | NotImplemented => Raise TypeError
      end
  end.

(** [Coordinate(a, b)] and [Coordinate(a, b, False)]. *)
Definition rect (a b : N) : t := new a b true.
Definition polar (a b : N) : t := new a b false.

(** *** The expressions the specification talks about *)

(** [to_rect(to_polar(c))]. *)
Definition rect_of_polar (c : t) : result t :=
  p <- to_polar c ;; to_rect p.

(** "Convert both to rectangular and compare exactly": what the
    specification says [==] does on mixed representations. *)
Definition compare_as_rectangular (a b : t) : result bool :=
  ra <- to_rect a ;;
  rb <- to_rect b ;;
  eq_rectangular ra rb.

(** "Compare [r] exactly and compare [theta mod tau]": the comparison of
    the polar branch of [__eq__]. *)
Definition compare_as_polar (a b : t) : result bool :=
  sr <- r a ;;
  or <- r b ;;
  if eqb sr or then
    st <- theta a ;;
    sm <- modulo st tau ;;
    ot <- theta b ;;
    om <- modulo ot tau ;;
    Ret (eqb sm om)
  else Ret false.

(** [a + b == b + a]. *)
Definition add_commutes (a b : t) : result bool :=
  ab <- add_operator a (VCoordinate b) ;;
  ba <- add_operator b (VCoordinate a) ;;
  __eq__ ab ba.

(** [c.rotate(angle).equals(d, tolerance)]. *)
Definition rotate_equals (c : t) (angle : N) (d : t) (tolerance : N)
  : result bool :=
  rotated <- rotate c angle ;;
  equals rotated (VCoordinate d) tolerance.

(** *** Construction from one argument, and complex numbers *)

(** Python's built-in [complex], as its two parts. *)
Record complex : Type := Complex {
  real : N;
  imag : N
}.

(** The single positional argument of [Coordinate(x)]: an instance of
    [numbers.Complex], which a real number is too (its [imag] is [0]), or
    anything else, which [x, y = x] unpacks as a sequence of numbers. *)
Inductive argument : Type :=
  | AReal (n : N)
  | AComplex (z : complex)
  | ASequence (items : list N).

(** [__new__] when [y] is left out: [Coordinate(x)] and
    [Coordinate(x, is_rectangular=flag)].  The unpacking [x, y = x] of a
    sequence that has not exactly two items raises [ValueError].  (With
    both [x] and [y] given, [__new__] stores them: the constructor [new].) *)
Definition __new__ (x : argument) (is_rectangular : bool) : result t :=
  match x with
  | AReal n => Ret (new n (of_int 0) is_rectangular)
  | AComplex z => Ret (new (real z) (imag z) is_rectangular)
  | ASequence (a :: b :: nil)%list => Ret (new a b is_rectangular)
  | ASequence _ => Raise ValueError
  end.

(** The items of the tuple that a Coordinate is: what iterating over it, or
    unpacking it, yields. *)
Definition items (self : t) : list N :=
  (item0 self :: item1 self :: nil)%list.



End Methods.

Arguments t N : clear implicits.
Arguments value N : clear implicits.
Arguments complex N : clear implicits.
Arguments argument N : clear implicits.

End Coordinate.

(** ** Python's [float] on binary64 *)

Module Binary64.

Open Scope float_scope.

(** The functions of the platform's C library that CPython calls for
    [math.atan], [math.cos], [math.sin] and for [**] on floats. *)
Record Libm : Type := {
  libm_atan : float -> float;
  libm_cos : float -> float;
  libm_sin : float -> float;
  libm_pow : float -> float -> float
}.

(** C's [fmod], which is exact: the result is [x - n * y] for the integer
    [n] that [x / y] truncates to, with the sign of [x]. *)
Definition fmod (x y : float) : float :=
  match Prim2SF x, Prim2SF y with
  | S754_nan, _ => nan
  | _, S754_nan => nan
  | S754_infinity _, _ => nan
  | _, S754_zero _ => nan
  | S754_zero _, _ => x
  | S754_finite _ _ _, S754_infinity _ => x
  | S754_finite sx mx ex, S754_finite _ my ey =>
      let e := Z.min ex ey in
      let a := (Zpos mx * 2 ^ (ex - e))%Z in
      let b := (Zpos my * 2 ^ (ey - e))%Z in
      SF2Prim (binary_normalize prec emax (cond_Zopp sx (Z.rem a b)) e sx)
  end.

(** C's [floor], from the fractional part that [fmod] gives. *)
Definition floor (x : float) : float :=
  let m := fmod x 1 in
  if is_nan m then x
  else if m =? 0 then x
  else if m <? 0 then x - m - 1
  else x - m.

(** [DOUBLE_IS_ODD_INTEGER] of floatobject.c. *)
Definition is_odd_integer (x : float) : bool := fmod (abs x) 2 =? 1.

(** [float_div] of floatobject.c. *)
Definition float_div (a b : float) : result float :=
  if b =? 0 then Raise ZeroDivisionError else Ret (a / b).

(** [float_rem] of floatobject.c: the remainder takes the sign of the
    divisor. *)
Definition float_rem (vx wx : float) : result float :=
  if wx =? 0 then Raise ZeroDivisionError
  else
    let m := fmod vx wx in
    if negb (m =? 0) then
      if xorb (wx <? 0) (m <? 0) then Ret (m + wx) else Ret m
    else Ret (if wx <? 0 then neg_zero else zero).

(** [float_pow] of floatobject.c.  The special cases are settled before the
    platform's [pow] is asked; a result of [pow] that is infinite is
    reported as [OverflowError].  A negative base with a fractional
    exponent leaves the floats (a complex number in Python 3, ValueError in
    Python 2): the model raises [ValueError]. *)
Definition float_pow (L : Libm) (iv iw : float) : result float :=
  if iw =? 0 then Ret 1
  else if is_nan iv then Ret iv
  else if is_nan iw then Ret (if iv =? 1 then 1 else iw)
  else if is_infinity iw then
    let av := abs iv in
    if av =? 1 then Ret 1
    else if Bool.eqb (0 <? iw) (1 <? av) then Ret (abs iw)
    else Ret 0
  else if is_infinity iv then
    let odd := is_odd_integer iw in
    if 0 <? iw then Ret (if odd then iv else abs iv)
    else Ret (if odd then (if iv <? 0 then neg_zero else zero) else 0)
  else if iv =? 0 then
    if iw <? 0 then Raise ZeroDivisionError
    else Ret (if is_odd_integer iw then iv else 0)
  else
    if (iv <? 0) && negb (iw =? floor iw) then Raise ValueError
    else
      let negate_result := (iv <? 0) && is_odd_integer iw in
      let iv := if iv <? 0 then - iv else iv in
      if iv =? 1 then Ret (if negate_result then -1 else 1)
      else
        let ix := libm_pow L iv iw in
        if is_infinity ix then Raise OverflowError
        else Ret (if negate_result then - ix else ix).

(** [math_1] of mathmodule.c, the wrapper of [math.atan], [math.cos] and
    [math.sin] (none of which may overflow): a NaN from a number, or an
    infinity from a finite number, is a [ValueError]. *)
Definition math_1 (func : float -> float) (x : float) : result float :=
  let r := func x in
  if is_nan r && negb (is_nan x) then Raise ValueError
  else if is_infinity r && is_finite x then Raise ValueError
  else Ret r.

(** [math.pi]. *)
Definition math_pi : float := 0x1.921fb54442d18p+1.

Definition binary64 (L : Libm) : PyNum float := {|
  of_int := fun z => SF2Prim (binary_normalize prec emax z 0 false);
  half := 0.5;
  pi := math_pi;
  add := PrimFloat.add;
  mul := PrimFloat.mul;
  neg := PrimFloat.opp;
  div := float_div;
  modulo := float_rem;
  pow := float_pow L;
  eqb := PrimFloat.eqb;
  ltb := PrimFloat.ltb;
  leb := PrimFloat.leb;
  truth := fun a => negb (a =? 0);
  math_atan := math_1 (libm_atan L);
  math_cos := math_1 (libm_cos L);
  math_sin := math_1 (libm_sin L)
|}.

(** *** Hashing (CPython 3.8 and later, 64-bit) *)

(** [_PyHASH_MODULUS], the Mersenne prime [2^61 - 1]. *)
Definition PyHASH_MODULUS : Z := 2 ^ 61 - 1.

(** [_Py_HashDouble]: the number [m * 2^e] reduced modulo
    [_PyHASH_MODULUS] (where [2^61 = 1]), signed, with [-1] replaced by
    [-2]; [314159] for the infinities.  A NaN hashes to [0] up to Python
    3.9 and by object identity from 3.10 on; the model returns [0]. *)
Definition hash_double (v : float) : Z :=
  match Prim2SF v with
  | S754_nan => 0
  | S754_zero _ => 0
  | S754_infinity s => if s then (-314159) else 314159
  | S754_finite s m e =>
      let h := ((Zpos m * 2 ^ (e mod 61)) mod PyHASH_MODULUS)%Z in
      let h := if s then (- h)%Z else h in
      if (h =? -1)%Z then (-2)%Z else h
  end.

Definition wrap64 (z : Z) : Z := (z mod 2 ^ 64)%Z.

Definition PyHASH_XXPRIME_1 : Z := 11400714785074694791.
Definition PyHASH_XXPRIME_2 : Z := 14029467366897019727.
Definition PyHASH_XXPRIME_5 : Z := 2870177450012600261.

(** [_PyHASH_XXROTATE]: rotate a 64-bit word left by 31 bits. *)
Definition PyHASH_XXROTATE (a : Z) : Z :=
  Z.lor (wrap64 (Z.shiftl a 31)) (Z.shiftr a 33).

(** One round of [tuplehash] of tupleobject.c, for an item of hash
    [lane]. *)
Definition tuplehash_round (acc lane : Z) : Z :=
  let acc := wrap64 (acc + wrap64 lane * PyHASH_XXPRIME_2) in
  let acc := PyHASH_XXROTATE acc in
  wrap64 (acc * PyHASH_XXPRIME_1).

(** [tuplehash] of a tuple of two floats, as a signed 64-bit integer. *)
Definition tuplehash (a b : float) : Z :=
  let acc := PyHASH_XXPRIME_5 in
  let acc := tuplehash_round acc (hash_double a) in
  let acc := tuplehash_round acc (hash_double b) in
  let acc := wrap64 (acc + Z.lxor 2 (Z.lxor PyHASH_XXPRIME_5 3527539)) in
  if (acc =? 2 ^ 64 - 1)%Z then 1546275796%Z
  else if (acc <? 2 ^ 63)%Z then acc else (acc - 2 ^ 64)%Z.

(** [Coordinate.__hash__]: the tuple hash of [self.to_rect()]. *)
Definition __hash__ (L : Libm) (self : Coordinate.t float) : result Z :=
  rect <- Coordinate.to_rect (num := binary64 L) self ;;
  Ret (tuplehash (Coordinate.item0 rect) (Coordinate.item1 rect)).


(** *** A reference C library

    The correctly rounded values of [atan], [cos] and [sin] at the
    arguments that the examples of this file reach (the values glibc
    returns there), and a [pow] that is correctly rounded for the two
    exponents the program uses.  Elsewhere the table has no entry and
    answers NaN; nothing below evaluates it there. *)

Module Reference.

Open Scope float_scope.

Definition quarter_pi : float := 0x1.921fb54442d18p-1.
Definition half_pi : float := 0x1.921fb54442d18p+0.
Definition two_pi : float := 0x1.921fb54442d18p+2.

Definition atan (a : float) : float :=
  if is_nan a then nan
  else if a =? 0 then a
  else if a =? 1 then quarter_pi
  else nan.

Definition cos (a : float) : float :=
  if is_nan a then nan
  else if a =? 0 then 1
  else if a =? quarter_pi then 0x1.6a09e667f3bcdp-1
  else if a =? half_pi then 0x1.1a62633145c07p-54
  else if a =? two_pi then 1
  else nan.

Definition sin (a : float) : float :=
  if is_nan a then nan
  else if a =? 0 then a
  else if a =? quarter_pi then 0x1.6a09e667f3bccp-1
  else if a =? half_pi then 1
  else if a =? two_pi then -0x1.1a62633145c07p-52
  else nan.

Definition pow (a b : float) : float :=
  if b =? 2 then a * a
  else if b =? 0.5 then PrimFloat.sqrt a
  else nan.

Definition libm : Libm :=
  {| libm_atan := atan; libm_cos := cos; libm_sin := sin; libm_pow := pow |}.

End Reference.

(** Python's [float] over the reference library. *)
Definition cpython : PyNum float := binary64 Reference.libm.

(** The tolerance [1e-9] of the examples. *)
Definition tol9 : float := 0x1.12e0be826d695p-30%float.

End Binary64.

(** Whether a specification float is a zero. *)
Definition SFzero (f : spec_float) : bool :=
  match f with S754_zero _ => true | _ => false end.

(** * Properties of the methods *)

(** Evaluate a division of two closed floats. *)
Ltac run_float_div :=
  match goal with
  | |- context [Binary64.float_div ?a ?b] =>
      let v := eval vm_compute in (Binary64.float_div a b) in
      change (Binary64.float_div a b) with v
  end.

(** ** Facts that hold for every arithmetic *)

Section Generic.

Context {N : Type} {num : PyNum N}.

(** [+c] has the representation of [c]. *)
Lemma pos_keeps_representation (c p : Coordinate.t N) :
  Coordinate.__pos__ c = Ret p ->
  Coordinate.is_rectangular p = Coordinate.is_rectangular c.
Proof.
  unfold Coordinate.__pos__, Coordinate.x, Coordinate.y, Coordinate.r.
  destruct (Coordinate.is_rectangular c); simpl.
  - intros H; inversion H; reflexivity.
  - destruct (modulo _ _); simpl; intros H; inversion H; reflexivity.
Qed.

(** [to_polar] answers a polar instance. *)
Lemma to_polar_is_polar (c p : Coordinate.t N) :
  Coordinate.to_polar c = Ret p -> Coordinate.is_rectangular p = false.
Proof.
  unfold Coordinate.to_polar.
  destruct (Coordinate.is_rectangular c) eqn:Hc.
  - destruct (Coordinate.x c); simpl; [| discriminate].
    match goal with |- (theta <- ?m ;; _) = _ -> _ => destruct m end;
      simpl; [| discriminate].
    destruct (Coordinate.__abs__ c); simpl; [| discriminate].
    intros H; inversion H; reflexivity.
  - intros H. apply pos_keeps_representation in H. congruence.
Qed.

(** What [rotate] computes: the polar pair [(r, theta + angle)] of the
    receiver, stored in a rectangular instance. *)
Lemma rotate_unfold (c : Coordinate.t N) (angle : N) :
  Coordinate.rotate c angle =
  (p <- Coordinate.to_polar c ;;
   Ret (Coordinate.rect (Coordinate.item0 p)
          (add (Coordinate.item1 p) angle))).
Proof.
  unfold Coordinate.rotate.
  destruct (Coordinate.to_polar c) as [p |] eqn:Hp; simpl; [| reflexivity].
  apply to_polar_is_polar in Hp.
  unfold Coordinate.r, Coordinate.theta. rewrite Hp. simpl.
  destruct (Coordinate.is_rectangular c); reflexivity.
Qed.

(** On a rectangular left operand and a polar right operand [__eq__] takes
    its second branch. *)
Lemma eq_rect_polar (a b c d : N) :
  Coordinate.__eq__ (Coordinate.rect a b) (Coordinate.polar c d) =
  Coordinate.compare_as_polar (Coordinate.rect a b) (Coordinate.polar c d).
Proof. reflexivity. Qed.

(** On a polar left operand and a rectangular right operand it takes the
    third. *)
Lemma eq_polar_rect (a b c d : N) :
  Coordinate.__eq__ (Coordinate.polar a b) (Coordinate.rect c d) =
  Coordinate.compare_as_rectangular (Coordinate.polar a b)
    (Coordinate.rect c d).
Proof. reflexivity. Qed.

End Generic.

(** ** Rotation *)

Section Rotation.

Context {N : Type} {num : PyNum N}.

(** C2. [rotate] is meant to answer in the representation of the receiver,
    and misses it: whatever the receiver, polar ones included, the instance
    it returns is rectangular. *)
Theorem rotate_returns_rectangular (c v : Coordinate.t N) (angle : N) :
  Coordinate.rotate c angle = Ret v ->
  Coordinate.is_rectangular v = true.
Proof.
  rewrite rotate_unfold.
  destruct (Coordinate.to_polar c); simpl; [| discriminate].
  intros H; inversion H; reflexivity.
Qed.

End Rotation.

(** [Coordinate(2.0, 0.0, False).rotate(math.pi / 2)] is the rectangular
    [Coordinate(2.0, 1.5707963267948966)]. *)
Lemma rotate_returns_rectangular_witness :
  Coordinate.rotate (num := Binary64.cpython)
    (Coordinate.polar 2%float 0%float) Binary64.Reference.half_pi
  = Ret (Coordinate.rect 2%float Binary64.Reference.half_pi)
  /\ Coordinate.is_rectangular
       (Coordinate.rect 2%float Binary64.Reference.half_pi) = true.
Proof.
  split.
  - vm_compute. reflexivity.
  - apply (@rotate_returns_rectangular float Binary64.cpython
             (Coordinate.polar 2%float 0%float) _
             Binary64.Reference.half_pi).
    vm_compute. reflexivity.
Defined.

(** ** Operands of an unsupported type *)

Section Unsupported.

Context {N : Type} {num : PyNum N}.

(** C9. [+] and [-] answer [NotImplemented] to an operand that is not a
    Coordinate, [*] and [/] to one that is not a real number. *)
Theorem arithmetic_not_implemented (c : Coordinate.t N)
    (other : Coordinate.value N) :
  (Coordinate.is_coordinate other = false ->
     Coordinate.__add__ c other = Ret NotImplemented /\
     Coordinate.__sub__ c other = Ret NotImplemented) /\
  (Coordinate.is_real other = false ->
     Coordinate.__mul__ c other = Ret NotImplemented /\
     Coordinate.__rmul__ c other = Ret NotImplemented /\
     Coordinate.__truediv__ c other = Ret NotImplemented).
Proof.
  split; intros H; destruct other; simpl in H; try discriminate;
    repeat split; reflexivity.
Qed.

(** C10 (as amended).  With a [v] that is not a Coordinate,
    [c.equals(v, tolerance)] goes by the reflected subtraction of [v]: it
    raises [TypeError] when [v.__rsub__(c)] is missing or answers
    [NotImplemented], as for every real number and every object of the
    other built-in types, where the subtraction fails before the magnitude
    is taken; it raises what [v.__rsub__(c)] raises; and when
    [v.__rsub__(c)] answers a Coordinate [d], it is [abs(d) <= tolerance]. *)
Theorem equals_non_coordinate_raises (c : Coordinate.t N)
    (v : Coordinate.value N) (tolerance : N) :
  (forall n : N,
     Coordinate.equals c (Coordinate.VReal n) tolerance = Raise TypeError) /\
  Coordinate.equals c Coordinate.VOther tolerance = Raise TypeError /\
  (Coordinate.is_coordinate v = false ->
   (Coordinate.__rsub__ v c = Ret NotImplemented ->
    Coordinate.equals c v tolerance = Raise TypeError) /\
   (forall e : exn,
      Coordinate.__rsub__ v c = Raise e ->
      Coordinate.equals c v tolerance = Raise e) /\
   (forall d : Coordinate.t N,
      Coordinate.__rsub__ v c = Ret (Done d) ->
      Coordinate.equals c v tolerance
      = (m <- Coordinate.__abs__ d ;; Ret (leb m tolerance)))).
Proof.
  split; [reflexivity |]. split; [reflexivity |].
  intros Hv.
  assert (Hsub : Coordinate.__sub__ c v = Ret NotImplemented)
    by (destruct v; simpl in Hv; try discriminate; reflexivity).
  unfold Coordinate.equals, Coordinate.sub_operator. rewrite Hsub. simpl.
  repeat split.
  - intros H. rewrite H. reflexivity.
  - intros e H. rewrite H. reflexivity.
  - intros d H. rewrite H. reflexivity.
Qed.

End Unsupported.

(** [None] on the other side of the operators. *)
Lemma arithmetic_not_implemented_witness :
  Coordinate.is_coordinate (@Coordinate.VOther float) = false /\
  Coordinate.is_real (@Coordinate.VOther float) = false /\
  Coordinate.__add__ (num := Binary64.cpython)
    (Coordinate.rect 1%float 2%float) Coordinate.VOther
  = Ret NotImplemented /\
  Coordinate.__mul__ (num := Binary64.cpython)
    (Coordinate.rect 1%float 2%float) Coordinate.VOther
  = Ret NotImplemented.
Proof.
  destruct (@arithmetic_not_implemented float Binary64.cpython
              (Coordinate.rect 1%float 2%float) Coordinate.VOther)
    as [Ha Hm].
  split; [reflexivity |].
  split; [reflexivity |].
  split.
  - exact (proj1 (Ha eq_refl)).
  - exact (proj1 (Hm eq_refl)).
Defined.

(** [Coordinate(1.0, 2.0).equals(1.0, 1e-9)]. *)
Lemma equals_non_coordinate_raises_witness :
  Coordinate.is_coordinate (Coordinate.VReal 1%float) = false /\
  Coordinate.__rsub__ (Coordinate.VReal 1%float)
    (Coordinate.rect 1%float 2%float) = Ret NotImplemented /\
  Coordinate.equals (num := Binary64.cpython)
    (Coordinate.rect 1%float 2%float) (Coordinate.VReal 1%float)
    Binary64.tol9 = Raise TypeError.
Proof.
  split; [reflexivity |]. split; [reflexivity |].
  apply (proj1 (proj2 (proj2
           (@equals_non_coordinate_raises float Binary64.cpython
              (Coordinate.rect 1%float 2%float) (Coordinate.VReal 1%float)
              Binary64.tol9)) eq_refl)).
  reflexivity.
Defined.

(** C10, counterexample.  An instance [v] of a class whose [__rsub__]
    hands back the left operand, as in
    [def __rsub__(self, other): return other], is not a Coordinate, and
    [Coordinate(3.0, 4.0).equals(v, 1e-9)] raises nothing: [c - v] is [c],
    of magnitude [5.0], and the answer is [False]. *)
Lemma equals_non_coordinate_counterexample :
  Coordinate.is_coordinate
    (Coordinate.VObject (fun _ : Coordinate.t float => Ret NotImplemented)
       (fun c : Coordinate.t float => Ret (Done c))) = false /\
  Coordinate.equals (num := Binary64.cpython)
    (Coordinate.rect 3%float 4%float)
    (Coordinate.VObject (fun _ => Ret NotImplemented)
       (fun c => Ret (Done c)))
    Binary64.tol9 = Ret false.
Proof. split; [reflexivity | vm_compute; reflexivity]. Qed.

(** ** On binary64 *)

Section FloatFacts.

Open Scope float_scope.

(** Comparisons with zero, the commutativity of [+], and the hash of
    floats that compare equal. *)

Lemma Prim2SF_zero : Prim2SF 0 = S754_zero false.
Proof. reflexivity. Qed.

Lemma ltb_zero_neg (y : float) :
  (y <? 0) = true -> (y =? 0) = false /\ (0 <? y) = false.
Proof.
  rewrite !FloatAxioms.ltb_spec, FloatAxioms.eqb_spec, Prim2SF_zero.
  unfold SFltb, SFeqb.
  destruct (Prim2SF y) as [s | s | | s m e]; simpl;
    try destruct s; simpl; intros H; try discriminate; split; reflexivity.
Qed.

Lemma eqb_zero_cases (a : float) :
  (a =? 0) = true -> a = 0 \/ a = (-0).
Proof.
  rewrite FloatAxioms.eqb_spec, Prim2SF_zero. unfold SFeqb.
  destruct (Prim2SF a) as [s | s | | s m e] eqn:Ha; simpl;
    try destruct s; simpl; intros H; try discriminate.
  - right. rewrite <- (SF2Prim_Prim2SF a), Ha. reflexivity.
  - left. rewrite <- (SF2Prim_Prim2SF a), Ha. reflexivity.
Qed.

Lemma SFadd_comm (a b : spec_float) : SF64add a b = SF64add b a.
Proof.
  unfold SF64add, SFadd.
  destruct a as [sa | sa | | sa ma ea], b as [sb | sb | | sb mb eb];
    try reflexivity.
  - destruct sa, sb; reflexivity.
  - destruct sa, sb; reflexivity.
  - rewrite (Z.min_comm eb ea).
    rewrite Z.add_comm. reflexivity.
Qed.

Lemma float_add_comm (a b : float) : a + b = b + a.
Proof.
  apply Prim2SF_inj. rewrite !add_spec. apply SFadd_comm.
Qed.

Lemma pos_compare_cont_eq (p q : positive) :
  PosDef.Pos.compare_cont Eq p q = Eq -> p = q.
Proof. apply Pos.compare_eq. Qed.

Lemma eqb_hash_double (a b : float) :
  (a =? b) = true -> Binary64.hash_double a = Binary64.hash_double b.
Proof.
  rewrite FloatAxioms.eqb_spec. unfold SFeqb, Binary64.hash_double.
  destruct (Prim2SF a) as [sa | sa | | sa ma ea],
           (Prim2SF b) as [sb | sb | | sb mb eb]; simpl;
    try discriminate; try reflexivity;
    try (destruct sa; discriminate); try (destruct sb; discriminate);
    try (destruct sa, sb; (discriminate || reflexivity)).
  destruct sa, sb; try discriminate;
    (destruct (Z.compare_spec ea eb) as [He | He | He]; try discriminate;
     subst eb; intros H;
     destruct (PosDef.Pos.compare_cont Eq ma mb) eqn:Hm; try discriminate;
     apply pos_compare_cont_eq in Hm; subst mb; reflexivity).
Qed.

(** The tuple hash only looks at the hashes of the items. *)
Lemma tuplehash_congr (a a' b b' : float) :
  Binary64.hash_double a = Binary64.hash_double a' ->
  Binary64.hash_double b = Binary64.hash_double b' ->
  Binary64.tuplehash a b = Binary64.tuplehash a' b'.
Proof. intros Ha Hb. unfold Binary64.tuplehash. rewrite Ha, Hb. reflexivity. Qed.

(** A float that is not a NaN equals itself. *)
Lemma eqb_refl_not_nan (a : float) : is_nan a = false -> (a =? a) = true.
Proof. unfold is_nan. destruct (a =? a); [reflexivity | discriminate]. Qed.

End FloatFacts.

Section OnFloats.

Open Scope float_scope.

Variable L : Binary64.Libm.

(** C3 (as amended).  Dividing a Coordinate by a zero scalar ([0], [0.0] or
    [-0.0]) raises [ZeroDivisionError], in either representation: no
    infinity and no NaN is produced. *)
Theorem truediv_zero_raises (c : Coordinate.t float) (z : float) :
  (z =? 0) = true ->
  Coordinate.__truediv__ (num := Binary64.binary64 L) c (Coordinate.VReal z)
  = Raise ZeroDivisionError.
Proof.
  intros Hz. destruct c as [a b [|]]; simpl;
    unfold Binary64.float_div; rewrite Hz; reflexivity.
Qed.

(** The [math] wrappers raise nothing but [ValueError], so neither does
    [to_rect]. *)
Lemma math_1_outcome (f : float -> float) (a : float) :
  Binary64.math_1 f a = Ret (f a) \/ Binary64.math_1 f a = Raise ValueError.
Proof.
  unfold Binary64.math_1.
  destruct (is_nan (f a) && negb (is_nan a)); [right; reflexivity |].
  destruct (is_infinity (f a) && is_finite a); [right | left]; reflexivity.
Qed.

Lemma to_rect_outcome (c : Coordinate.t float) :
  (exists a b,
     Coordinate.to_rect (num := Binary64.binary64 L) c
     = Ret (Coordinate.rect a b)) \/
  Coordinate.to_rect (num := Binary64.binary64 L) c = Raise ValueError.
Proof.
  destruct c as [a b [|]]; unfold Coordinate.to_rect; simpl.
  - left. exists a, b. reflexivity.
  - destruct (math_1_outcome (Binary64.libm_cos L) b) as [Hc | Hc];
      rewrite Hc; simpl; [| right; reflexivity].
    destruct (math_1_outcome (Binary64.libm_sin L) b) as [Hs | Hs];
      rewrite Hs; simpl; [| right; reflexivity].
    left. eexists _, _. reflexivity.
Qed.

(** C8.  The angle that [to_polar] gives a rectangular [(x, y)]: for
    [x != 0] it is [atan(y / x)], plus [pi] when [x < 0], and for [x == 0]
    with [y < 0] it is [tau * 3 / 4]; the magnitude is [abs(self)], whose
    failure is the only one [to_polar] can add to that of [math.atan].
    [Coordinate(-1, 0)] has the angle [pi] and [Coordinate(0, -2)] the angle
    [tau * 3 / 4], as soon as the C library has [atan] of a zero zero and
    [pow(2, 2) = 4], [pow(4, 0.5) = 2]. *)
Theorem to_polar_angle :
  (forall x y : float, (x =? 0) = false ->
     Coordinate.to_polar (num := Binary64.binary64 L) (Coordinate.rect x y)
     = (a <- Binary64.math_1 (Binary64.libm_atan L) (y / x) ;;
        m <- Coordinate.__abs__ (num := Binary64.binary64 L)
               (Coordinate.rect x y) ;;
        Ret (Coordinate.polar m
               (if x <? 0 then a + Binary64.math_pi else a)))) /\
  (forall x y : float, (x =? 0) = true -> (y <? 0) = true ->
     Coordinate.to_polar (num := Binary64.binary64 L) (Coordinate.rect x y)
     = (m <- Coordinate.__abs__ (num := Binary64.binary64 L)
               (Coordinate.rect x y) ;;
        Ret (Coordinate.polar m
               (Coordinate.tau (num := Binary64.binary64 L) * 3 / 4)))) /\
  ((Binary64.libm_atan L neg_zero =? 0) = true ->
     Coordinate.theta (num := Binary64.binary64 L) (Coordinate.rect (-1) 0)
     = Ret Binary64.math_pi) /\
  (Binary64.libm_pow L 2 2 = 4 -> Binary64.libm_pow L 4 0.5 = 2 ->
     Coordinate.theta (num := Binary64.binary64 L) (Coordinate.rect 0 (-2))
     = Ret (Coordinate.tau (num := Binary64.binary64 L) * 3 / 4)).
Proof.
  repeat apply conj.
  - intros x y Hx.
    unfold Coordinate.to_polar. simpl.
    rewrite Hx. simpl. unfold Binary64.float_div. rewrite Hx. simpl.
    destruct (Binary64.math_1 _ _); simpl; reflexivity.
  - intros x y Hx Hy.
    destruct (ltb_zero_neg Hy) as [Hy0 Hy1].
    unfold Coordinate.to_polar. simpl.
    rewrite Hx, Hy0. simpl. unfold zero. rewrite Hy1.
    run_float_div. reflexivity.
  - intros H.
    destruct (eqb_zero_cases H) as [E | E]; unfold neg_zero in E;
      unfold Coordinate.theta, Coordinate.to_polar; simpl;
      unfold Binary64.math_1; rewrite !E; vm_compute; reflexivity.
  - intros H1 H2.
    vm_compute in H1, H2. vm_compute. rewrite H1. vm_compute. rewrite H2.
    vm_compute. reflexivity.
Qed.

(** [==] on two rectangular instances compares the stored items. *)
Lemma eq_rectangular_true (a b c d : float) :
  Coordinate.eq_rectangular (num := Binary64.binary64 L)
    (Coordinate.rect a b) (Coordinate.rect c d) = Ret true ->
  (a =? c) = true /\ (b =? d) = true.
Proof.
  unfold Coordinate.eq_rectangular. simpl.
  destruct (a =? c); [| discriminate].
  intros H. inversion H. split; reflexivity.
Qed.

(** Where [==] is decided on the rectangular forms, that is, whenever the
    right operand is rectangular, the hash does follow it: the hash is the
    tuple hash of the rectangular form, and [a == b] implies
    [hash(a) == hash(b)]. *)
Theorem hash_respects_rectangular_eq :
  (forall a : Coordinate.t float,
     Binary64.__hash__ L a
     = (q <- Coordinate.to_rect (num := Binary64.binary64 L) a ;;
        Ret (Binary64.tuplehash (Coordinate.item0 q) (Coordinate.item1 q)))) /\
  (forall a b : Coordinate.t float,
     Coordinate.is_rectangular b = true ->
     Coordinate.__eq__ (num := Binary64.binary64 L) a b = Ret true ->
     Binary64.__hash__ L a = Binary64.__hash__ L b).
Proof.
  split; [reflexivity |].
  intros a b. destruct b as [c d fb]. simpl. intros ->.
  unfold Binary64.__hash__.
  destruct a as [a0 a1 [|]].
  - intros H. apply eq_rectangular_true in H. destruct H as [H0 H1].
    simpl. f_equal.
    apply tuplehash_congr; apply eqb_hash_double; assumption.
  - intros H. unfold Coordinate.__eq__ in H. simpl in H.
    destruct (to_rect_outcome (Coordinate.polar a0 a1)) as [(u & v & Hr) | Hr];
      unfold Coordinate.polar in Hr; rewrite Hr in *; simpl in *;
      [| discriminate].
    apply eq_rectangular_true in H. destruct H as [H0 H1].
    f_equal. apply tuplehash_congr; apply eqb_hash_double; assumption.
Qed.

(** C7 (as amended).  For [a] and [b] of the same representation [a + b]
    and [b + a] are the same outcome, the same Coordinate or the same
    exception; and for rectangular [a] and [b] whose component sums are
    not NaN, [a + b == b + a] is [True]. *)
Theorem add_commutes_same_representation (a b : Coordinate.t float) :
  (Coordinate.is_rectangular a = Coordinate.is_rectangular b ->
   Coordinate.add_operator (num := Binary64.binary64 L) a
     (Coordinate.VCoordinate b)
   = Coordinate.add_operator (num := Binary64.binary64 L) b
       (Coordinate.VCoordinate a)) /\
  (Coordinate.is_rectangular a = true ->
   Coordinate.is_rectangular b = true ->
   is_nan (Coordinate.item0 a + Coordinate.item0 b) = false ->
   is_nan (Coordinate.item1 a + Coordinate.item1 b) = false ->
   Coordinate.add_commutes (num := Binary64.binary64 L) a b = Ret true).
Proof.
  split.
  - intros Hrep.
    unfold Coordinate.add_operator, Coordinate.__add__.
    rewrite Hrep.
    destruct (to_rect_outcome a) as [(a0 & a1 & Ha) | Ha],
             (to_rect_outcome b) as [(b0 & b1 & Hb) | Hb];
      rewrite Ha, Hb; simpl; try reflexivity.
    rewrite (float_add_comm b0 a0), (float_add_comm b1 a1). reflexivity.
  - destruct a as [a0 a1 fa], b as [b0 b1 fb]. simpl.
    intros -> -> H0 H1.
    unfold Coordinate.add_commutes. simpl.
    rewrite (float_add_comm b0 a0), (float_add_comm b1 a1).
    unfold Coordinate.__eq__, Coordinate.eq_rectangular. simpl.
    rewrite (eqb_refl_not_nan _ H0), (eqb_refl_not_nan _ H1). reflexivity.
Qed.

End OnFloats.

(** [Coordinate(1.0, 2.0, False) / 0.0]. *)
Lemma truediv_zero_raises_witness :
  (0 =? 0)%float = true /\
  Coordinate.__truediv__ (num := Binary64.cpython)
    (Coordinate.polar 1%float 2%float) (Coordinate.VReal 0%float)
  = Raise ZeroDivisionError.
Proof.
  split.
  - reflexivity.
  - apply (truediv_zero_raises Binary64.Reference.libm). reflexivity.
Defined.

Section FloatExamples.

Open Scope float_scope.

(** C3, counterexample.  [Coordinate(1.0, 2.0) / 0.0] raises: it has no
    value, with infinite components or others. *)
Lemma truediv_zero_counterexample :
  Coordinate.__truediv__ (num := Binary64.cpython)
    (Coordinate.rect 1%float 2%float) (Coordinate.VReal 0%float)
  = Raise ZeroDivisionError /\
  ~ (exists q,
       Coordinate.__truediv__ (num := Binary64.cpython)
         (Coordinate.rect 1%float 2%float) (Coordinate.VReal 0%float)
       = Ret (Done q)).
Proof.
  split.
  - vm_compute. reflexivity.
  - intros [q Hq]. vm_compute in Hq. discriminate.
Qed.

(** C1.  [rotate] does not rotate: what it returns is the polar pair
    [(r, theta + angle)] of the receiver stored as a rectangular [(x, y)].
    [Coordinate(2.0, 0.0).rotate(pi / 2)] is
    [Coordinate(2.0, 1.5707963267948966)], which is not within [1e-9] of
    [Coordinate(0.0, 2.0)], and a full turn of [Coordinate(2.0, 0.0)] is
    [Coordinate(2.0, 6.283185307179586)], not within [1e-9] of the
    receiver. *)
Theorem rotate_examples_fail :
  (forall (N : Type) (num : PyNum N) (c : Coordinate.t N) (angle : N),
     Coordinate.rotate c angle
     = (p <- Coordinate.to_polar c ;;
        Ret (Coordinate.rect (Coordinate.item0 p)
               (add (Coordinate.item1 p) angle)))) /\
  Coordinate.rotate (num := Binary64.cpython)
    (Coordinate.rect 2 0) Binary64.Reference.half_pi
  = Ret (Coordinate.rect 2 Binary64.Reference.half_pi) /\
  Coordinate.rotate_equals (num := Binary64.cpython)
    (Coordinate.rect 2 0) Binary64.Reference.half_pi
    (Coordinate.rect 0 2) Binary64.tol9
  = Ret false /\
  Coordinate.rotate (num := Binary64.cpython)
    (Coordinate.rect 2 0) Binary64.Reference.two_pi
  = Ret (Coordinate.rect 2 Binary64.Reference.two_pi) /\
  Coordinate.rotate_equals (num := Binary64.cpython)
    (Coordinate.rect 2 0) Binary64.Reference.two_pi
    (Coordinate.rect 2 0) Binary64.tol9
  = Ret false.
Proof.
  split; [intros; apply rotate_unfold |].
  vm_compute. repeat split.
Qed.

(** C4.  With a rectangular [a] and a polar [b], [a == b] is not decided
    on the rectangular forms: it takes the branch that compares [r] and
    [theta % tau], while the other order, a polar [a] and a rectangular
    [b], does compare the rectangular forms.  [Coordinate(-1.0, 0.0)] and
    [Coordinate(-1.0, 0.0, False)] have the rectangular forms [(-1.0, 0.0)]
    and [(-1.0, -0.0)], which compare equal, and [b == a] is [True]; but
    [a == b] compares [r = 1.0] with [r = -1.0] and is [False]. *)
Theorem eq_mixed_rect_polar_example :
  (forall (N : Type) (num : PyNum N) (a b c d : N),
     Coordinate.__eq__ (Coordinate.rect a b) (Coordinate.polar c d)
     = Coordinate.compare_as_polar
         (Coordinate.rect a b) (Coordinate.polar c d)) /\
  (forall (N : Type) (num : PyNum N) (a b c d : N),
     Coordinate.__eq__ (Coordinate.polar a b) (Coordinate.rect c d)
     = Coordinate.compare_as_rectangular
         (Coordinate.polar a b) (Coordinate.rect c d)) /\
  Coordinate.compare_as_rectangular (num := Binary64.cpython)
    (Coordinate.rect (-1) 0) (Coordinate.polar (-1) 0) = Ret true /\
  Coordinate.__eq__ (num := Binary64.cpython)
    (Coordinate.polar (-1) 0) (Coordinate.rect (-1) 0) = Ret true /\
  Coordinate.__eq__ (num := Binary64.cpython)
    (Coordinate.rect (-1) 0) (Coordinate.polar (-1) 0) = Ret false.
Proof.
  split; [intros; apply eq_rect_polar |].
  split; [intros; apply eq_polar_rect |].
  split; [vm_compute; reflexivity |].
  split; vm_compute; reflexivity.
Qed.

(** [Coordinate(1.0, 1.0)], [Coordinate(0.0, -2.0)] and
    [Coordinate(-1.0, 0.0)] over the reference library. *)
Lemma to_polar_angle_witness :
  ((1 =? 0) = false /\
   Coordinate.to_polar (num := Binary64.cpython) (Coordinate.rect 1 1)
   = Ret (Coordinate.polar 0x1.6a09e667f3bcdp+0
            Binary64.Reference.quarter_pi)) /\
  ((0 =? 0) = true /\ (-2 <? 0) = true /\
   Coordinate.to_polar (num := Binary64.cpython) (Coordinate.rect 0 (-2))
   = Ret (Coordinate.polar 2 0x1.2d97c7f3321d2p+2)) /\
  ((Binary64.libm_atan Binary64.Reference.libm neg_zero =? 0) = true /\
   Coordinate.theta (num := Binary64.cpython) (Coordinate.rect (-1) 0)
   = Ret Binary64.math_pi) /\
  (Binary64.libm_pow Binary64.Reference.libm 2 2 = 4 /\
   Binary64.libm_pow Binary64.Reference.libm 4 0.5 = 2 /\
   Coordinate.theta (num := Binary64.cpython) (Coordinate.rect 0 (-2))
   = Ret 0x1.2d97c7f3321d2p+2).
Proof.
  destruct (to_polar_angle Binary64.Reference.libm) as (Ha & Hb & Hc & Hd).
  split; [split; [reflexivity |] |].
  { unfold Binary64.cpython. rewrite (Ha 1 1 eq_refl).
    vm_compute. reflexivity. }
  split; [split; [reflexivity | split; [reflexivity |]] |].
  { unfold Binary64.cpython. rewrite (Hb 0 (-2) eq_refl eq_refl).
    vm_compute. reflexivity. }
  split; [split; [reflexivity |] |].
  { exact (Hc eq_refl). }
  split; [reflexivity | split; [reflexivity |]].
  exact (Hd eq_refl eq_refl).
Defined.

(** C5.  Equal instances with different hashes: [__hash__] goes through
    [to_rect] to keep the hash in step with [==] across representations,
    and misses it.  The polar [Coordinate(1.0, 0.0, False)] and
    [Coordinate(1.0, math.tau, False)], whose angles differ by [tau],
    compare equal ([r] is the same and both angles are [0.0] modulo [tau]),
    but their rectangular forms are [(1.0, 0.0)] and
    [(1.0, -2.4492935982947064e-16)], and the hashes differ. *)
Lemma hash_eq_counterexample :
  Coordinate.__eq__ (num := Binary64.cpython)
    (Coordinate.polar 1 0) (Coordinate.polar 1 Binary64.Reference.two_pi)
  = Ret true /\
  Binary64.__hash__ Binary64.Reference.libm (Coordinate.polar 1 0)
  = Ret (-5164621852614943976)%Z /\
  Binary64.__hash__ Binary64.Reference.libm
    (Coordinate.polar 1 Binary64.Reference.two_pi)
  = Ret 558150472052426164%Z /\
  Binary64.__hash__ Binary64.Reference.libm (Coordinate.polar 1 0)
  <> Binary64.__hash__ Binary64.Reference.libm
       (Coordinate.polar 1 Binary64.Reference.two_pi).
Proof.
  split; [vm_compute; reflexivity |].
  split; [vm_compute; reflexivity |].
  split; [vm_compute; reflexivity |].
  vm_compute. discriminate.
Qed.

(** [Coordinate(1.0, 0.0, False)] and [Coordinate(1.0, -0.0)]. *)
Lemma hash_respects_rectangular_eq_witness :
  Coordinate.is_rectangular (Coordinate.rect 1 (-0)) = true /\
  Coordinate.__eq__ (num := Binary64.cpython)
    (Coordinate.polar 1 0) (Coordinate.rect 1 (-0)) = Ret true /\
  Binary64.__hash__ Binary64.Reference.libm (Coordinate.polar 1 0)
  = Binary64.__hash__ Binary64.Reference.libm (Coordinate.rect 1 (-0)).
Proof.
  split; [reflexivity |].
  split; [vm_compute; reflexivity |].
  apply (proj2 (hash_respects_rectangular_eq Binary64.Reference.libm)).
  - reflexivity.
  - vm_compute. reflexivity.
Defined.

(** The round trip through [to_polar] on floats.  [Coordinate(1e200, 0.0)]
    has no polar form: its magnitude needs [1e200 ** 2], which raises
    [OverflowError], and so does [to_rect(to_polar(c))].  Where it is
    computed it is rounded: [to_rect(to_polar(Coordinate(1.0, 1.0)))] is
    [Coordinate(1.0000000000000002, 1.0)]. *)
Lemma round_trip_counterexample :
  Coordinate.to_polar (num := Binary64.cpython)
    (Coordinate.rect 0x1.4e718d7d7625ap+664 0) = Raise OverflowError /\
  Coordinate.rect_of_polar (num := Binary64.cpython)
    (Coordinate.rect 0x1.4e718d7d7625ap+664 0) = Raise OverflowError /\
  Coordinate.rect_of_polar (num := Binary64.cpython) (Coordinate.rect 1 1)
  = Ret (Coordinate.rect 0x1.0000000000001p+0 1).
Proof. repeat split; vm_compute; reflexivity. Qed.

(** C7, counterexample.  With the polar [a = Coordinate(1.0, 0.0, False)]
    and the rectangular [b = Coordinate(0.0, 1.0)], [a + b] is the polar
    [(1.4142135623730951, 0.7853981633974483)], [b + a] is the rectangular
    [(1.0, 1.0)], and [a + b == b + a] compares the rectangular form
    [(1.0000000000000002, 1.0)] of the first with the second. *)
Lemma add_commutes_counterexample :
  Coordinate.add_operator (num := Binary64.cpython) (Coordinate.polar 1 0)
    (Coordinate.VCoordinate (Coordinate.rect 0 1))
  = Ret (Coordinate.polar 0x1.6a09e667f3bcdp+0
           Binary64.Reference.quarter_pi) /\
  Coordinate.add_operator (num := Binary64.cpython) (Coordinate.rect 0 1)
    (Coordinate.VCoordinate (Coordinate.polar 1 0))
  = Ret (Coordinate.rect 1 1) /\
  Coordinate.to_rect (num := Binary64.cpython)
    (Coordinate.polar 0x1.6a09e667f3bcdp+0 Binary64.Reference.quarter_pi)
  = Ret (Coordinate.rect 0x1.0000000000001p+0 1) /\
  Coordinate.add_commutes (num := Binary64.cpython)
    (Coordinate.polar 1 0) (Coordinate.rect 0 1) = Ret false.
Proof. repeat split; vm_compute; reflexivity. Qed.

(** [Coordinate(1.0, 2.0) + Coordinate(0.5, -2.0)]. *)
Lemma add_commutes_same_representation_witness :
  Coordinate.add_operator (num := Binary64.cpython) (Coordinate.rect 1 2)
    (Coordinate.VCoordinate (Coordinate.rect 0.5 (-2)))
  = Coordinate.add_operator (num := Binary64.cpython)
      (Coordinate.rect 0.5 (-2))
      (Coordinate.VCoordinate (Coordinate.rect 1 2)) /\
  Coordinate.add_commutes (num := Binary64.cpython)
    (Coordinate.rect 1 2) (Coordinate.rect 0.5 (-2)) = Ret true.
Proof.
  destruct (add_commutes_same_representation Binary64.Reference.libm
              (Coordinate.rect 1 2) (Coordinate.rect 0.5 (-2))) as [H1 H2].
  split.
  - exact (H1 eq_refl).
  - exact (H2 eq_refl eq_refl eq_refl eq_refl).
Defined.

End FloatExamples.

(** * Further properties *)

(** ** For every arithmetic *)

Section MoreGeneric.

Context {N : Type} {num : PyNum N}.

Lemma to_rect_is_rectangular (c q : Coordinate.t N) :
  Coordinate.to_rect c = Ret q -> Coordinate.is_rectangular q = true.
Proof.
  unfold Coordinate.to_rect.
  destruct (Coordinate.is_rectangular c) eqn:Hc.
  - intros H. inversion H. subst q. assumption.
  - destruct (math_cos _); simpl; [| discriminate].
    destruct (math_sin _); simpl; [| discriminate].
    intros H. inversion H. reflexivity.
Qed.

Lemma to_rect_of_rectangular (q : Coordinate.t N) :
  Coordinate.is_rectangular q = true -> Coordinate.to_rect q = Ret q.
Proof. intros H. unfold Coordinate.to_rect. rewrite H. reflexivity. Qed.

Lemma x_of_rectangular (q : Coordinate.t N) :
  Coordinate.is_rectangular q = true ->
  Coordinate.x q = Ret (Coordinate.item0 q).
Proof. intros H. unfold Coordinate.x. rewrite H. reflexivity. Qed.

Lemma y_of_rectangular (q : Coordinate.t N) :
  Coordinate.is_rectangular q = true ->
  Coordinate.y q = Ret (Coordinate.item1 q).
Proof. intros H. unfold Coordinate.y. rewrite H. reflexivity. Qed.

Lemma neg_rectangular (q : Coordinate.t N) :
  Coordinate.is_rectangular q = true ->
  Coordinate.__neg__ q
  = Ret (Coordinate.rect (neg (Coordinate.item0 q)) (neg (Coordinate.item1 q))).
Proof. intros H. unfold Coordinate.__neg__. rewrite H. reflexivity. Qed.

(** X1.  [a + b] and [a - b] have the representation of the left operand
    [a], whatever that of [b]. *)
Theorem add_sub_keep_representation (a b p : Coordinate.t N) :
  (Coordinate.__add__ a (Coordinate.VCoordinate b) = Ret (Done p) ->
   Coordinate.is_rectangular p = Coordinate.is_rectangular a) /\
  (Coordinate.__sub__ a (Coordinate.VCoordinate b) = Ret (Done p) ->
   Coordinate.is_rectangular p = Coordinate.is_rectangular a).
Proof.
  split.
  - unfold Coordinate.__add__.
    destruct (Coordinate.to_rect a) as [ra |] eqn:Ha; simpl; [| discriminate].
    destruct (Coordinate.to_rect b) as [rb |] eqn:Hb; simpl; [| discriminate].
    apply to_rect_is_rectangular in Ha, Hb.
    rewrite (x_of_rectangular _ Ha), (x_of_rectangular _ Hb),
      (y_of_rectangular _ Ha), (y_of_rectangular _ Hb). simpl.
    destruct (Coordinate.is_rectangular a); simpl.
    + intros H. inversion H. reflexivity.
    + destruct (Coordinate.to_polar _) as [q |] eqn:Hq; simpl; [| discriminate].
      intros H. inversion H. subst q. apply (to_polar_is_polar _ Hq).
  - unfold Coordinate.__sub__.
    destruct (Coordinate.to_rect a) as [ra |] eqn:Ha; simpl; [| discriminate].
    destruct (Coordinate.to_rect b) as [rb |] eqn:Hb; simpl; [| discriminate].
    apply to_rect_is_rectangular in Ha, Hb.
    rewrite (neg_rectangular _ Hb). simpl.
    rewrite (x_of_rectangular _ Ha), (y_of_rectangular _ Ha). simpl.
    destruct (Coordinate.is_rectangular a); simpl.
    + intros H. inversion H. reflexivity.
    + destruct (Coordinate.to_polar _) as [q |] eqn:Hq; simpl; [| discriminate].
      intros H. inversion H. subst q. apply (to_polar_is_polar _ Hq).
Qed.

(** X2.  [c * k], [c / k], [-c], [+c] and [c.conjugate] have the
    representation of [c]. *)
Theorem scalar_unary_keep_representation (c p : Coordinate.t N) (k : N) :
  (Coordinate.__mul__ c (Coordinate.VReal k) = Ret (Done p) ->
   Coordinate.is_rectangular p = Coordinate.is_rectangular c) /\
  (Coordinate.__truediv__ c (Coordinate.VReal k) = Ret (Done p) ->
   Coordinate.is_rectangular p = Coordinate.is_rectangular c) /\
  (Coordinate.__neg__ c = Ret p ->
   Coordinate.is_rectangular p = Coordinate.is_rectangular c) /\
  (Coordinate.conjugate c = Ret p ->
   Coordinate.is_rectangular p = Coordinate.is_rectangular c) /\
  (Coordinate.__pos__ c = Ret p ->
   Coordinate.is_rectangular p = Coordinate.is_rectangular c).
Proof.
  repeat apply conj.
  - unfold Coordinate.__mul__, Coordinate.x, Coordinate.y, Coordinate.r,
      Coordinate.theta.
    destruct (Coordinate.is_rectangular c) eqn:Hc; simpl.
    + intros H. inversion H. reflexivity.
    + destruct (Coordinate.__pos__ _) as [q |] eqn:Hq; simpl; [| discriminate].
      intros H. inversion H. subst q.
      apply pos_keeps_representation in Hq. exact Hq.
  - unfold Coordinate.__truediv__, Coordinate.x, Coordinate.y, Coordinate.r,
      Coordinate.theta.
    destruct (Coordinate.is_rectangular c) eqn:Hc; simpl.
    + destruct (div _ _); simpl; [| discriminate].
      destruct (div _ _); simpl; [| discriminate].
      intros H. inversion H. reflexivity.
    + destruct (div _ _); simpl; [| discriminate].
      destruct (Coordinate.__pos__ _) as [q |] eqn:Hq; simpl; [| discriminate].
      intros H. inversion H. subst q.
      apply pos_keeps_representation in Hq. exact Hq.
  - intros H. apply pos_keeps_representation in H. exact H.
  - intros H. apply pos_keeps_representation in H. exact H.
  - apply pos_keeps_representation.
Qed.

(** X3.  [to_rect] answers a rectangular instance, which [to_rect] leaves
    as it is; [to_polar] answers a polar one. *)
Theorem conversions_land (c q : Coordinate.t N) :
  (Coordinate.to_rect c = Ret q ->
     Coordinate.is_rectangular q = true /\ Coordinate.to_rect q = Ret q) /\
  (Coordinate.to_polar c = Ret q -> Coordinate.is_rectangular q = false).
Proof.
  split.
  - intros H. pose proof (to_rect_is_rectangular _ H) as Hq.
    split; [assumption | apply to_rect_of_rectangular; assumption].
  - apply to_polar_is_polar.
Qed.

(** X4.  With a rectangular [b], [a - b] is [a + (-b)], the same Coordinate
    or the same exception. *)
Theorem sub_is_add_neg (a b : Coordinate.t N) :
  Coordinate.is_rectangular b = true ->
  Coordinate.__sub__ a (Coordinate.VCoordinate b)
  = (nb <- Coordinate.__neg__ b ;;
     Coordinate.__add__ a (Coordinate.VCoordinate nb)).
Proof.
  intros Hb. rewrite (neg_rectangular _ Hb). simpl.
  unfold Coordinate.__sub__, Coordinate.__add__.
  rewrite (to_rect_of_rectangular _ Hb).
  destruct (Coordinate.to_rect a) as [ra |]; simpl; [| reflexivity].
  rewrite (neg_rectangular _ Hb). reflexivity.
Qed.


(** X6.  [Coordinate(seq)] unpacks a sequence of exactly two numbers and
    raises [ValueError] on any other length.  Called on the items of a
    Coordinate [c] with the flag of [c] it gives [c] back; called on them
    alone, as in [Coordinate(c)], it gives the rectangular instance that
    stores the pair of [c], whatever the representation of [c]. *)
Theorem new_from_sequence (l : list N) (flag : bool) :
  (length l = 2 ->
   exists a b, l = (a :: b :: nil)%list /\
     Coordinate.__new__ (Coordinate.ASequence l) flag
     = Ret (Coordinate.new a b flag)) /\
  (length l <> 2 ->
   Coordinate.__new__ (Coordinate.ASequence l) flag = Raise ValueError) /\
  (forall c : Coordinate.t N,
     Coordinate.__new__ (Coordinate.ASequence (Coordinate.items c))
       (Coordinate.is_rectangular c) = Ret c /\
     Coordinate.__new__ (Coordinate.ASequence (Coordinate.items c)) true
     = Ret (Coordinate.rect (Coordinate.item0 c) (Coordinate.item1 c))).
Proof.
  split; [| split].
  - destruct l as [| a [| b [| c l]]]; simpl; try discriminate.
    intros _. exists a, b. split; reflexivity.
  - destruct l as [| a [| b [| c l]]]; simpl; try reflexivity.
    intros H. contradiction H. reflexivity.
  - intros [a b f]. split; reflexivity.
Qed.

End MoreGeneric.

(** ** On binary64, for every C library *)

Section MoreFloatFacts.

Open Scope float_scope.

Lemma SFeqb_sym (f g : spec_float) : SFeqb f g = SFeqb g f.
Proof.
  unfold SFeqb, SFcompare.
  destruct f as [sf | sf | | sf mf ef], g as [sg | sg | | sg mg eg];
    try reflexivity;
    try (destruct sf; reflexivity); try (destruct sg; reflexivity);
    try (destruct sf, sg; reflexivity).
  destruct sf, sg; try reflexivity;
    rewrite (Z.compare_antisym ef eg);
    destruct (ef ?= eg)%Z; simpl; try reflexivity;
    change (PosDef.Pos.compare_cont Eq mg mf) with (Pos.compare mg mf);
    change (PosDef.Pos.compare_cont Eq mf mg) with (Pos.compare mf mg);
    rewrite (Pos.compare_antisym mf mg);
    destruct (mf ?= mg)%positive; reflexivity.
Qed.

Lemma float_eqb_sym (a b : float) : (a =? b) = (b =? a).
Proof. rewrite !FloatAxioms.eqb_spec. apply SFeqb_sym. Qed.

Lemma Prim2SF_infinity : Prim2SF infinity = S754_infinity false.
Proof. reflexivity. Qed.

(** What [is_finite] says of the specification of a float. *)
Lemma finite_cases (u : float) :
  is_finite u = true ->
  (exists s, Prim2SF u = S754_zero s) \/
  (exists s m e, Prim2SF u = S754_finite s m e).
Proof.
  unfold is_finite, is_nan, is_infinity.
  rewrite !FloatAxioms.eqb_spec, abs_spec, Prim2SF_infinity.
  destruct (Prim2SF u) as [s | s | | s m e]; simpl.
  - intros _. left. exists s. reflexivity.
  - destruct s; discriminate.
  - discriminate.
  - intros _. right. exists s, m, e. reflexivity.
Qed.

Lemma float_add_opp (u : float) : is_finite u = true -> u + - u = 0.
Proof.
  intros H. apply Prim2SF_inj.
  rewrite add_spec, opp_spec, Prim2SF_zero.
  destruct (@finite_cases u H) as [[s Hs] | (s & m & e & Hs)]; rewrite Hs.
  - destruct s; reflexivity.
  - unfold SF64add, SFadd, SFopp.
    set (k := fst (shl_align m e (Z.min e e))).
    replace (cond_Zopp s (Z.pos k) + cond_Zopp (negb s) (Z.pos k))%Z
      with 0%Z by (destruct s; cbv [cond_Zopp negb]; lia).
    reflexivity.
Qed.

Lemma float_opp_involutive (u : float) : - - u = u.
Proof.
  apply Prim2SF_inj. rewrite !opp_spec.
  destruct (Prim2SF u) as [s | s | | s m e]; simpl;
    try rewrite negb_involutive; reflexivity.
Qed.

Lemma SFopp_binary_round_aux (s : bool) (m e : Z) (l : location) :
  SFopp (binary_round_aux prec emax s m e l)
  = binary_round_aux prec emax (negb s) m e l.
Proof.
  unfold binary_round_aux.
  destruct (shr_fexp prec emax m e l) as [mrs' e'].
  destruct (shr_fexp prec emax _ e' loc_Exact) as [mrs'' e''].
  destruct (shr_m mrs''); simpl; try reflexivity.
  destruct (e'' <=? 971)%Z; reflexivity.
Qed.

Lemma SFopp_binary_normalize (m e : Z) :
  m <> 0%Z ->
  SFopp (binary_normalize prec emax m e false)
  = binary_normalize prec emax (- m) e false.
Proof.
  intros Hm. destruct m as [| p | p]; [contradiction Hm; reflexivity | |];
    simpl; unfold binary_round;
    destruct (shl_align _ _ _) as [mz ez]; apply SFopp_binary_round_aux.
Qed.

Lemma SFadd_opp (f g : spec_float) :
  SF64add (SFopp f) (SFopp g) = SFopp (SF64add f g) \/
  (SFzero (SF64add f g) = true /\ SFzero (SF64add (SFopp f) (SFopp g)) = true).
Proof.
  unfold SF64add, SFadd.
  destruct f as [sf | sf | | sf mf ef], g as [sg | sg | | sg mg eg];
    simpl; try (left; reflexivity);
    try (destruct sf, sg; simpl; (left; reflexivity) || (right; split; reflexivity)).
  set (ez := Z.min ef eg).
  set (X := Z.pos (fst (shl_align mf ef ez))).
  set (Y := Z.pos (fst (shl_align mg eg ez))).
  replace (cond_Zopp (negb sf) X + cond_Zopp (negb sg) Y)%Z
    with (- (cond_Zopp sf X + cond_Zopp sg Y))%Z
    by (destruct sf, sg; cbv [cond_Zopp negb]; lia).
  destruct (Z.eq_dec (cond_Zopp sf X + cond_Zopp sg Y) 0) as [H0 | H0].
  - right. rewrite H0. split; reflexivity.
  - left. symmetry. apply SFopp_binary_normalize. assumption.
Qed.

Lemma SFopp_involutive (f : spec_float) : SFopp (SFopp f) = f.
Proof. destruct f; simpl; try rewrite negb_involutive; reflexivity. Qed.

Lemma eqb_zero_of_SFzero (d : float) :
  SFzero (Prim2SF d) = true -> (d =? 0) = true.
Proof.
  rewrite FloatAxioms.eqb_spec, Prim2SF_zero.
  destruct (Prim2SF d); simpl; try discriminate. reflexivity.
Qed.

(** [b - a] is the opposite of [a - b], or both are zero. *)
Lemma float_sub_swap (a b : float) :
  b + - a = - (a + - b) \/
  ((a + - b =? 0) = true /\ (b + - a =? 0) = true).
Proof.
  destruct (SFadd_opp (Prim2SF a) (SFopp (Prim2SF b))) as [H | [H1 H2]];
    rewrite SFopp_involutive, SFadd_comm in *.
  - left. apply Prim2SF_inj.
    rewrite opp_spec, !add_spec, !opp_spec. exact H.
  - right. split; apply eqb_zero_of_SFzero; rewrite add_spec, opp_spec.
    + rewrite SFadd_comm. exact H1.
    + exact H2.
Qed.

End MoreFloatFacts.

Section MoreFloats.

Open Scope float_scope.

Variable L : Binary64.Libm.

Lemma tau_value :
  Coordinate.tau (num := Binary64.binary64 L) = Binary64.Reference.two_pi.
Proof. vm_compute. reflexivity. Qed.

Lemma float_rem_tau (t : float) :
  exists m,
    Binary64.float_rem t (Coordinate.tau (num := Binary64.binary64 L)) = Ret m.
Proof.
  rewrite tau_value. unfold Binary64.float_rem.
  change (Binary64.Reference.two_pi =? 0) with false.
  change (Binary64.Reference.two_pi <? 0) with false.
  cbv iota.
  destruct (negb (Binary64.fmod t Binary64.Reference.two_pi =? 0)).
  - destruct (xorb false _); eexists; reflexivity.
  - eexists; reflexivity.
Qed.

(** X8.  [==] is symmetric between two Coordinates of the same
    representation, for every C library: [a == b] and [b == a] are the same
    outcome. *)
Theorem eq_symmetric_same_representation (a b : Coordinate.t float) :
  Coordinate.is_rectangular a = Coordinate.is_rectangular b ->
  Coordinate.__eq__ (num := Binary64.binary64 L) a b
  = Coordinate.__eq__ (num := Binary64.binary64 L) b a.
Proof.
  destruct a as [a0 a1 fa], b as [b0 b1 fb]. simpl. intros <-.
  destruct fa.
  - unfold Coordinate.__eq__, Coordinate.eq_rectangular. simpl.
    rewrite (float_eqb_sym b0 a0), (float_eqb_sym b1 a1). reflexivity.
  - unfold Coordinate.__eq__. simpl.
    rewrite (float_eqb_sym b0 a0).
    destruct (a0 =? b0); [| reflexivity].
    destruct (float_rem_tau a1) as [ma Ha], (float_rem_tau b1) as [mb Hb].
    rewrite tau_value in Ha, Hb.
    unfold Binary64.Reference.two_pi in Ha, Hb.
    unfold Coordinate.theta. simpl.
    rewrite Ha, Hb. simpl. rewrite (float_eqb_sym mb ma). reflexivity.
Qed.

(** X9.  A Coordinate equals its own rectangular form and hashes as it
    does: when [c.to_rect()] has no NaN component, [c == c.to_rect()] is
    [True] and [hash(c) == hash(c.to_rect())]. *)
Theorem eq_own_rectangular_form (c q : Coordinate.t float) :
  Coordinate.to_rect (num := Binary64.binary64 L) c = Ret q ->
  is_nan (Coordinate.item0 q) = false ->
  is_nan (Coordinate.item1 q) = false ->
  Coordinate.__eq__ (num := Binary64.binary64 L) c q = Ret true /\
  Binary64.__hash__ L c = Binary64.__hash__ L q.
Proof.
  intros Hq H0 H1.
  pose proof (to_rect_is_rectangular _ Hq) as Hr.
  pose proof (to_rect_of_rectangular (num := Binary64.binary64 L) _ Hr)
    as Hqq.
  assert (He : Coordinate.eq_rectangular (num := Binary64.binary64 L) q q
               = Ret true).
  { unfold Coordinate.eq_rectangular.
    rewrite (x_of_rectangular (num := Binary64.binary64 L) _ Hr),
      (y_of_rectangular (num := Binary64.binary64 L) _ Hr). simpl.
    rewrite (eqb_refl_not_nan _ H0), (eqb_refl_not_nan _ H1). reflexivity. }
  split.
  - unfold Coordinate.__eq__. rewrite Hr. simpl.
    destruct (Coordinate.is_rectangular c) eqn:Hc.
    + unfold Coordinate.to_rect in Hq. rewrite Hc in Hq. inversion Hq.
      subst q. exact He.
    + rewrite Hq, Hqq. simpl. exact He.
  - unfold Binary64.__hash__. rewrite Hq, Hqq. reflexivity.
Qed.

(** X10.  [c.equals(c, tolerance)] is [0 <= tolerance] for every [c] whose
    rectangular form has finite components, for every C library: the
    difference is exactly zero. *)
Theorem equals_reflexive (c : Coordinate.t float) (u v tolerance : float) :
  Coordinate.to_rect (num := Binary64.binary64 L) c
  = Ret (Coordinate.rect u v) ->
  is_finite u = true -> is_finite v = true ->
  Coordinate.equals (num := Binary64.binary64 L) c
    (Coordinate.VCoordinate c) tolerance
  = Ret (0 <=? tolerance).
Proof.
  intros Hq Hu Hv.
  unfold Coordinate.equals, Coordinate.sub_operator, Coordinate.__sub__.
  rewrite Hq. simpl.
  rewrite (@float_add_opp u Hu), (@float_add_opp v Hv).
  destruct (Coordinate.is_rectangular c); vm_compute; reflexivity.
Qed.

(** X7.  On floats [c * k] never raises, and [c / k] returns a Coordinate
    whenever [k] is not zero. *)
Theorem scalar_outcomes (c : Coordinate.t float) (k : float) :
  (exists p,
     Coordinate.__mul__ (num := Binary64.binary64 L) c (Coordinate.VReal k)
     = Ret (Done p)) /\
  ((k =? 0) = false ->
   exists p,
     Coordinate.__truediv__ (num := Binary64.binary64 L) c
       (Coordinate.VReal k) = Ret (Done p)).
Proof.
  destruct c as [a b [|]]; split.
  - eexists. reflexivity.
  - intros Hk. unfold Coordinate.__truediv__. simpl.
    unfold Binary64.float_div. rewrite Hk. simpl. eexists. reflexivity.
  - destruct (float_rem_tau b) as [m Hm].
    rewrite tau_value in Hm. unfold Binary64.Reference.two_pi in Hm.
    unfold Coordinate.__mul__, Coordinate.__pos__. simpl.
    rewrite Hm. simpl. eexists. reflexivity.
  - intros Hk. destruct (float_rem_tau b) as [m Hm].
    rewrite tau_value in Hm. unfold Binary64.Reference.two_pi in Hm.
    unfold Coordinate.__truediv__, Coordinate.__pos__. simpl.
    unfold Binary64.float_div. rewrite Hk. simpl.
    rewrite Hm. simpl. eexists. reflexivity.
Qed.

(** [d ** 2], with the tests on the exponent evaluated. *)
Lemma float_pow_2 (d : float) :
  Binary64.float_pow L d 2
  = if is_nan d then Ret d
    else if is_infinity d then Ret (abs d)
    else if d =? 0 then Ret 0
    else
      let iv := if d <? 0 then - d else d in
      if iv =? 1 then Ret 1
      else
        let ix := Binary64.libm_pow L iv 2 in
        if is_infinity ix then Raise OverflowError else Ret ix.
Proof.
  unfold Binary64.float_pow.
  change (2 =? 0) with false. change (is_nan 2) with false.
  change (is_infinity 2) with false. change (0 <? 2) with true.
  change (Binary64.is_odd_integer 2) with false.
  change (2 <? 0) with false. change (2 =? Binary64.floor 2) with true.
  cbv iota. simpl negb. rewrite !andb_false_r. cbv iota.
  reflexivity.
Qed.

Lemma float_pow_2_opp (d : float) :
  Binary64.float_pow L (- d) 2 = Binary64.float_pow L d 2.
Proof.
  rewrite !float_pow_2.
  unfold is_nan, is_infinity.
  rewrite !FloatAxioms.eqb_spec, !FloatAxioms.ltb_spec, !abs_spec, !opp_spec,
    Prim2SF_zero.
  destruct (Prim2SF d) as [s | s | | s m e] eqn:Hd; simpl.
  - destruct s; reflexivity.
  - destruct s; simpl; f_equal; apply Prim2SF_inj;
      rewrite !abs_spec, opp_spec, Hd; reflexivity.
  - f_equal. apply Prim2SF_inj. rewrite opp_spec, Hd. reflexivity.
  - assert (Hrefl : SFeqb (S754_finite (negb s) m e) (S754_finite (negb s) m e)
                    = true /\
                    SFeqb (S754_finite s m e) (S754_finite s m e) = true).
    { unfold SFeqb, SFcompare. rewrite Z.compare_refl.
      change (PosDef.Pos.compare_cont Eq m m) with (Pos.compare m m).
      rewrite Pos.compare_refl. destruct s; split; reflexivity. }
    destruct Hrefl as [H1 H2]. rewrite H1, H2. simpl.
    destruct s; simpl; rewrite ?float_opp_involutive; reflexivity.
Qed.

Lemma float_pow_2_zero (d : float) :
  (d =? 0) = true -> Binary64.float_pow L d 2 = Ret 0.
Proof.
  intros H. destruct (eqb_zero_cases H) as [-> | ->]; reflexivity.
Qed.

Lemma float_pow_2_swap (a b : float) :
  Binary64.float_pow L (b + - a) 2 = Binary64.float_pow L (a + - b) 2.
Proof.
  destruct (float_sub_swap a b) as [H | [H1 H2]].
  - rewrite H. apply float_pow_2_opp.
  - rewrite (float_pow_2_zero H1), (float_pow_2_zero H2). reflexivity.
Qed.

(** X11.  [equals] is symmetric on rectangular instances, for every C
    library: [a.equals(b, t)] and [b.equals(a, t)] are the same outcome. *)
Theorem equals_symmetric_rectangular (a b : Coordinate.t float)
    (tolerance : float) :
  Coordinate.is_rectangular a = true ->
  Coordinate.is_rectangular b = true ->
  Coordinate.equals (num := Binary64.binary64 L) a
    (Coordinate.VCoordinate b) tolerance
  = Coordinate.equals (num := Binary64.binary64 L) b
      (Coordinate.VCoordinate a) tolerance.
Proof.
  destruct a as [a0 a1 fa], b as [b0 b1 fb]. simpl. intros -> ->.
  unfold Coordinate.equals, Coordinate.sub_operator, Coordinate.__sub__,
    Coordinate.__abs__, Coordinate.r. simpl.
  change (Binary64.float_pow L ?d (Z.ldexp _ _))
    with (Binary64.float_pow L d 2).
  rewrite (float_pow_2_swap a0 b0), (float_pow_2_swap a1 b1). reflexivity.
Qed.

(** X12.  On rectangular instances negation is an involution and keeps
    the magnitude, for every C library. *)
Theorem neg_rectangular_involution (a b : float) :
  Coordinate.__neg__ (num := Binary64.binary64 L) (Coordinate.rect a b)
  = Ret (Coordinate.rect (- a) (- b)) /\
  Coordinate.__neg__ (num := Binary64.binary64 L)
    (Coordinate.rect (- a) (- b)) = Ret (Coordinate.rect a b) /\
  Coordinate.__abs__ (num := Binary64.binary64 L)
    (Coordinate.rect (- a) (- b))
  = Coordinate.__abs__ (num := Binary64.binary64 L) (Coordinate.rect a b).
Proof.
  split; [reflexivity |]. split.
  - unfold Coordinate.__neg__, Coordinate.__pos__. simpl.
    rewrite !float_opp_involutive. reflexivity.
  - unfold Coordinate.__abs__, Coordinate.r. simpl.
    change (Binary64.float_pow L ?d (Z.ldexp _ _))
      with (Binary64.float_pow L d 2).
    rewrite !float_pow_2_opp. reflexivity.
Qed.

End MoreFloats.

(** ** Examples of the further properties *)

Section MoreExamples.

Open Scope float_scope.

(** [Coordinate(1.0, 0.0, False) + Coordinate(0.0, 1.0)] is polar. *)
Lemma add_sub_keep_representation_witness :
  Coordinate.__add__ (num := Binary64.cpython) (Coordinate.polar 1 0)
    (Coordinate.VCoordinate (Coordinate.rect 0 1))
  = Ret (Done (Coordinate.polar 0x1.6a09e667f3bcdp+0
                 Binary64.Reference.quarter_pi)) /\
  Coordinate.is_rectangular
    (Coordinate.polar 0x1.6a09e667f3bcdp+0 Binary64.Reference.quarter_pi)
  = Coordinate.is_rectangular (Coordinate.polar 1 0).
Proof.
  split; [vm_compute; reflexivity |].
  apply (proj1 (add_sub_keep_representation (num := Binary64.cpython)
                  (Coordinate.polar 1 0) (Coordinate.rect 0 1) _)).
  vm_compute. reflexivity.
Defined.

(** [Coordinate(1.0, 7.0, False) * 2.0] is the polar
    [(2.0, 0.7168146928204138)]. *)
Lemma scalar_unary_keep_representation_witness :
  Coordinate.__mul__ (num := Binary64.cpython) (Coordinate.polar 1 7)
    (Coordinate.VReal 2)
  = Ret (Done (Coordinate.polar 2 0x1.6f0255dde974p-1)) /\
  Coordinate.is_rectangular (Coordinate.polar 2 0x1.6f0255dde974p-1)
  = Coordinate.is_rectangular (Coordinate.polar 1 7).
Proof.
  split; [vm_compute; reflexivity |].
  apply (proj1 (scalar_unary_keep_representation (num := Binary64.cpython)
                  (Coordinate.polar 1 7) _ 2)).
  vm_compute. reflexivity.
Defined.

(** [Coordinate(1.0, 0.0, False).to_rect()] is [Coordinate(1.0, 0.0)]. *)
Lemma conversions_land_witness :
  Coordinate.to_rect (num := Binary64.cpython) (Coordinate.polar 1 0)
  = Ret (Coordinate.rect 1 0) /\
  Coordinate.is_rectangular (Coordinate.rect 1 0) = true /\
  Coordinate.to_rect (num := Binary64.cpython) (Coordinate.rect 1 0)
  = Ret (Coordinate.rect 1 0).
Proof.
  split; [vm_compute; reflexivity |].
  apply (proj1 (conversions_land (num := Binary64.cpython)
                  (Coordinate.polar 1 0) (Coordinate.rect 1 0))).
  vm_compute. reflexivity.
Defined.

(** [Coordinate(1.0, 2.0) - Coordinate(0.5, -2.0)]. *)
Lemma sub_is_add_neg_witness :
  Coordinate.is_rectangular (Coordinate.rect 0.5 (-2)) = true /\
  Coordinate.__sub__ (num := Binary64.cpython) (Coordinate.rect 1 2)
    (Coordinate.VCoordinate (Coordinate.rect 0.5 (-2)))
  = (nb <- Coordinate.__neg__ (num := Binary64.cpython)
             (Coordinate.rect 0.5 (-2)) ;;
     Coordinate.__add__ (num := Binary64.cpython) (Coordinate.rect 1 2)
       (Coordinate.VCoordinate nb)).
Proof.
  split; [reflexivity |].
  apply (sub_is_add_neg (num := Binary64.cpython)). reflexivity.
Defined.

(** [Coordinate([1.0, 2.0])] and [Coordinate([1.0])]. *)
Lemma new_from_sequence_witness :
  (length (1 :: 2 :: nil)%list = 2%nat /\
   exists a b, (1 :: 2 :: nil)%list = (a :: b :: nil)%list /\
     Coordinate.__new__ (num := Binary64.cpython)
       (Coordinate.ASequence (1 :: 2 :: nil)%list) true
     = Ret (Coordinate.new a b true)) /\
  (length (1 :: nil)%list <> 2%nat /\
   Coordinate.__new__ (num := Binary64.cpython)
     (Coordinate.ASequence (1 :: nil)%list) true = Raise ValueError).
Proof.
  split.
  - split; [reflexivity |].
    apply (proj1 (new_from_sequence (num := Binary64.cpython)
                    (1 :: 2 :: nil)%list true)).
    reflexivity.
  - split; [simpl; lia |].
    apply (proj1 (proj2 (new_from_sequence (num := Binary64.cpython)
                           (1 :: nil)%list true))).
    simpl. lia.
Defined.

(** [Coordinate(1.0, 7.0, False) / 2.0]. *)
Lemma scalar_outcomes_witness :
  (2 =? 0) = false /\
  exists p,
    Coordinate.__truediv__ (num := Binary64.cpython) (Coordinate.polar 1 7)
      (Coordinate.VReal 2) = Ret (Done p).
Proof.
  split; [reflexivity |].
  apply (proj2 (scalar_outcomes Binary64.Reference.libm
                  (Coordinate.polar 1 7) 2)).
  reflexivity.
Defined.

(** [Coordinate(1.0, 0.0, False)] and [Coordinate(1.0, math.tau, False)]. *)
Lemma eq_symmetric_same_representation_witness :
  Coordinate.is_rectangular (Coordinate.polar 1 0)
  = Coordinate.is_rectangular (Coordinate.polar 1 Binary64.Reference.two_pi)
  /\
  Coordinate.__eq__ (num := Binary64.cpython) (Coordinate.polar 1 0)
    (Coordinate.polar 1 Binary64.Reference.two_pi)
  = Coordinate.__eq__ (num := Binary64.cpython)
      (Coordinate.polar 1 Binary64.Reference.two_pi) (Coordinate.polar 1 0).
Proof.
  split; [reflexivity |].
  apply (eq_symmetric_same_representation Binary64.Reference.libm).
  reflexivity.
Defined.

(** [Coordinate(1.0, math.tau, False)] and its rectangular form
    [(1.0, -2.4492935982947064e-16)]. *)
Lemma eq_own_rectangular_form_witness :
  Coordinate.to_rect (num := Binary64.cpython)
    (Coordinate.polar 1 Binary64.Reference.two_pi)
  = Ret (Coordinate.rect 1 (-0x1.1a62633145c07p-52)) /\
  Coordinate.__eq__ (num := Binary64.cpython)
    (Coordinate.polar 1 Binary64.Reference.two_pi)
    (Coordinate.rect 1 (-0x1.1a62633145c07p-52)) = Ret true /\
  Binary64.__hash__ Binary64.Reference.libm
    (Coordinate.polar 1 Binary64.Reference.two_pi)
  = Binary64.__hash__ Binary64.Reference.libm
      (Coordinate.rect 1 (-0x1.1a62633145c07p-52)).
Proof.
  split; [vm_compute; reflexivity |].
  apply (eq_own_rectangular_form Binary64.Reference.libm).
  - vm_compute. reflexivity.
  - reflexivity.
  - reflexivity.
Defined.

(** [c.equals(c, 1e-9)] for [c = Coordinate(1.0, math.tau, False)]. *)
Lemma equals_reflexive_witness :
  Coordinate.equals (num := Binary64.cpython)
    (Coordinate.polar 1 Binary64.Reference.two_pi)
    (Coordinate.VCoordinate (Coordinate.polar 1 Binary64.Reference.two_pi))
    Binary64.tol9
  = Ret (0 <=? Binary64.tol9).
Proof.
  apply (equals_reflexive Binary64.Reference.libm
           (Coordinate.polar 1 Binary64.Reference.two_pi)
           (u := 1) (v := -0x1.1a62633145c07p-52)).
  - vm_compute. reflexivity.
  - reflexivity.
  - reflexivity.
Defined.

(** [Coordinate(1.0, 2.0)] and [Coordinate(0.5, -2.0)]. *)
Lemma equals_symmetric_rectangular_witness :
  Coordinate.equals (num := Binary64.cpython) (Coordinate.rect 1 2)
    (Coordinate.VCoordinate (Coordinate.rect 0.5 (-2))) Binary64.tol9
  = Coordinate.equals (num := Binary64.cpython) (Coordinate.rect 0.5 (-2))
      (Coordinate.VCoordinate (Coordinate.rect 1 2)) Binary64.tol9.
Proof.
  apply (equals_symmetric_rectangular Binary64.Reference.libm);
    reflexivity.
Defined.

End MoreExamples.

